(** * OrderStrategy: discount rules and the cumulative price calculator

    A shallow embedding of [main.cpp].  The C++ [double] is the kernel's
    binary64 [float]; [int] is [Z]; a pointer is an optional address into a
    memory of rule objects and customer objects, [None] being [nullptr]. *)

From Stdlib Require Import ZArith Lia List Bool.
From Stdlib Require Import Floats.
From Stdlib Require Uint63.
From stdpp Require Import base option gmap strings.

Set Warnings "-inexact-float".
Local Open Scope float_scope.

(** ** Numbers *)

Definition double := float.

(** [x >= y] on doubles: false as soon as one side is NaN. *)
Definition geb (x y : double) : bool := y <=? x.

(** Conversion of an [int] to [double] (exact on the whole [int] range). *)
Definition double_of_int (n : Z) : double :=
  if (n <? 0)%Z then - of_uint63 (Uint63.of_Z (- n)) else of_uint63 (Uint63.of_Z n).

(** [AreEqual(d1, d2, diff = 0.001)]. *)
Definition AreEqual_diff (d1 d2 diff : double) : bool := abs (d1 - d2) <=? diff.
Definition AreEqual (d1 d2 : double) : bool := AreEqual_diff d1 d2 0.001.

(** ** Discount rules *)

(** The four classes deriving from [DiscountType]; each constructor takes its
    arguments in the order of the C++ constructor. *)
Inductive DiscountType : Type :=
  | FixedDiscount (discount : double)
  | VolumeDiscount (quantity discount : double)
  | PriceDiscount (price discount : double)
  | AmountDiscount (price discount : double).

(** The virtual [DiscountPercent(price, quantity)]. *)
Definition DiscountPercent (d : DiscountType) (price quantity : double) : double :=
  match d with
  | FixedDiscount discount => discount
  | VolumeDiscount min_quantity discount =>
      if geb quantity min_quantity then discount else 0
  | PriceDiscount min_total_price discount =>
      if geb (price * quantity) min_total_price then discount else 0
  | AmountDiscount min_total_price discount =>
      if geb price min_total_price then discount else 0
  end.

(** The fraction a rule was constructed with. *)
Definition fraction (d : DiscountType) : double :=
  match d with
  | FixedDiscount f | VolumeDiscount _ f | PriceDiscount _ f | AmountDiscount _ f => f
  end.

(** ** Records *)

Definition addr := positive.
(** [T*]: [None] is [nullptr]. *)
Definition ptr := option addr.

Module Customer.
Record t := mk { name : string; discount : ptr }.
End Customer.

Inductive ArticleUnit := PIECE | KG | METER | SQMETER | CMETER | LITER.

Module Article.
Record t := mk { id : Z; name : string; price : double; unit : ArticleUnit; discount : ptr }.
End Article.

Module OrderLine.
Record t := mk { product : Article.t; quantity : Z; discount : ptr }.
End OrderLine.

Module Order.
Record t := mk { id : Z; buyer : ptr; lines : list OrderLine.t; discount : ptr }.
End Order.

(** The objects pointers point to: rules and customers, by address. *)
Record Memory := { rules : gmap addr DiscountType; customers : gmap addr Customer.t }.

(** ** The calculator *)

(** [if (d) line_price *= (1.0 - d->DiscountPercent(price, quantity));]
    Dereferencing an address that holds no rule has no result. *)
Definition discounted (M : Memory) (d : ptr) (line_price price quantity : double)
  : option double :=
  match d with
  | None => Some line_price
  | Some a =>
      match rules M !! a with
      | Some r => Some (line_price * (1 - DiscountPercent r price quantity))
      | None => None
      end
  end.

(** The rule tested by [o.buyer && o.buyer->discount]: none when there is no
    buyer. *)
Definition buyer_discount (M : Memory) (o : Order.t) : option ptr :=
  match Order.buyer o with
  | None => Some None
  | Some b =>
      match customers M !! b with
      | Some c => Some (Customer.discount c)
      | None => None
      end
  end.

(** The body of the loop, up to [price += line_price]: the value of
    [line_price] for one line. *)
Definition line_price (M : Memory) (o : Order.t) (ol : OrderLine.t) : option double :=
  let price := Article.price (OrderLine.product ol) in
  let quantity := double_of_int (OrderLine.quantity ol) in
  lp1 ← discounted M (Article.discount (OrderLine.product ol)) (price * quantity) price quantity;
  lp2 ← discounted M (OrderLine.discount ol) lp1 price quantity;
  bd ← buyer_discount M o;
  discounted M bd lp2 price quantity.

(** [for (auto ol : o.lines) { ...; price += line_price; }] from a running
    [price]. *)
Fixpoint sum_lines (M : Memory) (o : Order.t) (lines : list OrderLine.t) (price : double)
  : option double :=
  match lines with
  | [] => Some price
  | ol :: rest =>
      lp ← line_price M o ol;
      sum_lines M o rest (price + lp)
  end.

(** [CumulativePriceCalculator::CalculatePrice]. *)
Definition CalculatePrice (M : Memory) (o : Order.t) : option double :=
  price ← sum_lines M o (Order.lines o) 0;
  discounted M (Order.discount o) price price 0.

(** ** The objects of [main] *)

Module Main.
Definition d1 := FixedDiscount 0.1.
Definition d2 := VolumeDiscount 10 0.15.
Definition d3 := PriceDiscount 100 0.05.
Definition d4 := AmountDiscount 100 0.05.

Definition c1 := Customer.mk "default" None.
Definition c2 := Customer.mk "john" (Some 1%positive).
Definition c3 := Customer.mk "joane" (Some 3%positive).

(** [d1..d4] live at addresses 1..4 and [c1..c3] at addresses 1..3. *)
Definition M : Memory :=
  {| rules := <[1%positive := d1]> (<[2%positive := d2]> (<[3%positive := d3]> (<[4%positive := d4]> ∅)));
     customers := <[1%positive := c1]> (<[2%positive := c2]> (<[3%positive := c3]> ∅)) |}.

Definition a1 := Article.mk 1 "pen" 5 PIECE None.
Definition a2 := Article.mk 2 "expensive pen" 15 PIECE (Some 1%positive).
Definition a3 := Article.mk 3 "scissors" 10 PIECE (Some 2%positive).

Definition o1 := Order.mk 101 (Some 1%positive) [OrderLine.mk a1 1 None] None.
Definition o2 := Order.mk 102 (Some 2%positive) [OrderLine.mk a1 1 None] None.
Definition o3 := Order.mk 103 (Some 1%positive) [OrderLine.mk a2 1 None] None.
Definition o4 := Order.mk 104 (Some 2%positive) [OrderLine.mk a2 1 None] None.
Definition o5 := Order.mk 105 (Some 1%positive) [OrderLine.mk a3 1 None] None.
Definition o6 := Order.mk 106 (Some 1%positive) [OrderLine.mk a3 15 None] None.
Definition o7 := Order.mk 107 (Some 3%positive) [OrderLine.mk a3 15 None] None.
Definition o8 := Order.mk 108 (Some 3%positive) [OrderLine.mk a2 20 (Some 1%positive)] None.
Definition o9 := Order.mk 109 (Some 3%positive) [OrderLine.mk a2 20 (Some 1%positive)] (Some 4%positive).
End Main.


(** A memory with the objects of [Main.M] and others besides, which order
    [o8] does not refer to. *)
Definition other_memory : Memory :=
  {| rules := <[4%positive := FixedDiscount 0.5]> (<[9%positive := VolumeDiscount 1 0.9]> (rules Main.M));
     customers := <[1%positive := Customer.mk "other" (Some 9%positive)]> (customers Main.M) |}.

(** An order whose only line overflows, with a rule taking everything off. *)
Definition overflow_memory : Memory :=
  {| rules := <[1%positive := FixedDiscount 1]> ∅; customers := ∅ |}.


(** ** Vocabulary of the specification *)

(** The rule a pointer designates: [Some None] for [nullptr], no result for
    an address that holds no rule. *)
Definition deref (M : Memory) (d : ptr) : option (option DiscountType) :=
  match d with
  | None => Some None
  | Some a =>
      match rules M !! a with
      | Some r => Some (Some r)
      | None => None
      end
  end.

(** The buyer-level rule of an order. *)
Definition buyer_rule (M : Memory) (o : Order.t) : option (option DiscountType) :=
  match buyer_discount M o with
  | Some d => deref M d
  | None => None
  end.

(** "multiplied by (1 - f)" for an attached rule, [f] being the rule evaluated
    at [(price, quantity)]; nothing for an absent rule. *)
Definition times (r : option DiscountType) (price quantity x : double) : double :=
  match r with
  | Some r => x * (1 - DiscountPercent r price quantity)
  | None => x
  end.

(** Undiscounted amount of a line, [unitPrice * quantity]. *)
Definition amount (ol : OrderLine.t) : double :=
  Article.price (OrderLine.product ol) * double_of_int (OrderLine.quantity ol).

(** Sum of doubles in list order, starting from 0 as the loop does. *)
Definition sum (xs : list double) : double := fold_left PrimFloat.add xs 0.

(** The same number: equal as [==] compares doubles, or NaN on both sides. *)
Definition same_value (x y : double) : bool := (x =? y) || (is_nan x && is_nan y).


(** [d] is null or points to a rule satisfying [P]. *)
Definition rule_at (M : Memory) (P : DiscountType -> bool) (d : ptr) : bool :=
  match d with
  | None => true
  | Some a =>
      match rules M !! a with
      | Some r => P r
      | None => false
      end
  end.

(** [b] is null or points to a customer whose rule pointer is as [rule_at]
    wants. *)
Definition buyer_at (M : Memory) (P : DiscountType -> bool) (b : ptr) : bool :=
  match b with
  | None => true
  | Some a =>
      match customers M !! a with
      | Some c => rule_at M P (Customer.discount c)
      | None => false
      end
  end.

Definition line_at (M : Memory) (P : DiscountType -> bool) (ol : OrderLine.t) : bool :=
  rule_at M P (Article.discount (OrderLine.product ol)) && rule_at M P (OrderLine.discount ol).

(** Every pointer of the order's graph is null or valid, and every rule
    attached to the order (item, line, buyer, order level) satisfies [P]. *)
Definition attached (M : Memory) (P : DiscountType -> bool) (o : Order.t) : bool :=
  forallb (line_at M P) (Order.lines o)
  && buyer_at M P (Order.buyer o)
  && rule_at M P (Order.discount o).

(** An order the calculator can be called on: no dangling pointer. *)
Definition well_formed (M : Memory) (o : Order.t) : bool := attached M (fun _ => true) o.

(** No rule is attached at any level. *)
Definition no_discounts (M : Memory) (o : Order.t) : bool := attached M (fun _ => false) o.



(** Addresses the calculator may read for an order. *)
Definition ptr_addrs (d : ptr) : list addr :=
  match d with
  | Some a => [a]
  | None => []
  end.

Definition order_customers (o : Order.t) : list addr := ptr_addrs (Order.buyer o).

Definition order_rules (M : Memory) (o : Order.t) : list addr :=
  ptr_addrs (Order.discount o)
  ++ match buyer_discount M o with
     | Some d => ptr_addrs d
     | None => []
     end
  ++ flat_map (fun ol => ptr_addrs (Article.discount (OrderLine.product ol))
                         ++ ptr_addrs (OrderLine.discount ol)) (Order.lines o).

(** Two memories hold the same order graph for [o]. *)
Definition same_graph (M1 M2 : Memory) (o : Order.t) : Prop :=
  (forall b, In b (order_customers o) -> customers M1 !! b = customers M2 !! b)
  /\ (forall a, In a (order_rules M1 o) -> rules M1 !! a = rules M2 !! a).


(** ** Orders derived from an order *)

(** The order after [o.lines.push_back(ol)]. *)
Definition push_line (o : Order.t) (ol : OrderLine.t) : Order.t :=
  Order.mk (Order.id o) (Order.buyer o) (Order.lines o ++ [ol]) (Order.discount o).

(** The line with its own rule pointer set to [d]. *)
Definition with_line_rule (ol : OrderLine.t) (d : ptr) : OrderLine.t :=
  OrderLine.mk (OrderLine.product ol) (OrderLine.quantity ol) d.

(** The order without a buyer, every line carrying [d] as its own rule. *)
Definition buyer_rule_on_lines (o : Order.t) (d : ptr) : Order.t :=
  Order.mk (Order.id o) None (map (fun ol => with_line_rule ol d) (Order.lines o))
    (Order.discount o).

(** Identifiers, names and units blanked: what is left is the price, the
    quantity and the pointers. *)
Definition strip_article (a : Article.t) : Article.t :=
  Article.mk 0 "" (Article.price a) PIECE (Article.discount a).

Definition strip_line (ol : OrderLine.t) : OrderLine.t :=
  OrderLine.mk (strip_article (OrderLine.product ol)) (OrderLine.quantity ol)
    (OrderLine.discount ol).

Definition strip_order (o : Order.t) : Order.t :=
  Order.mk 0 (Order.buyer o) (map strip_line (Order.lines o)) (Order.discount o).

Definition strip_customer (c : Customer.t) : Customer.t :=
  Customer.mk "" (Customer.discount c).

Definition strip_memory (M : Memory) : Memory :=
  {| rules := rules M; customers := strip_customer <$> customers M |}.

(** A rule that compares its input with a threshold, and that threshold. *)
Definition threshold (d : DiscountType) : option double :=
  match d with
  | FixedDiscount _ => None
  | VolumeDiscount m _ | PriceDiscount m _ | AmountDiscount m _ => Some m
  end.

(** ** Signs on the specification side of binary64 *)






(** * Facts about binary64 arithmetic *)

Module Binary64.

Lemma SFcompare_antisym x y :
  SFcompare y x = option_map CompOpp (SFcompare x y).
Proof.
  destruct x as [s|s| |s m e], y as [s'|s'| |s' m' e']; cbn;
    try reflexivity; try (destruct s; reflexivity); try (destruct s'; reflexivity);
    try (destruct s, s'; reflexivity).
  destruct s, s'; cbn; try reflexivity.
  - rewrite (Z.compare_antisym e' e). destruct (e' ?= e)%Z; cbn; try reflexivity.
    rewrite CompOpp_involutive. f_equal. exact (Pos.compare_cont_antisym m' m Eq).
  - rewrite (Z.compare_antisym e' e). destruct (e' ?= e)%Z; cbn; try reflexivity.
    f_equal. symmetry. exact (Pos.compare_cont_antisym m m' Eq).
Qed.

Lemma ltb_leb_false (x y : float) : (x <? y) = true -> (y <=? x) = false.
Proof.
  rewrite ltb_spec, leb_spec. unfold SFltb, SFleb.
  rewrite (SFcompare_antisym (Prim2SF x) (Prim2SF y)).
  destruct (SFcompare (Prim2SF x) (Prim2SF y)) as [[]|]; cbn; congruence.
Qed.







Lemma iter_xO_pow2 m d : Z.pos (Pos.iter xO m d) = (Z.pos m * 2 ^ Z.pos d)%Z.
Proof.
  induction d as [|d IH] using Pos.peano_ind.
  - cbn. lia.
  - rewrite Pos.iter_succ, Pos2Z.inj_xO, IH, Pos2Z.inj_succ, Z.pow_succ_r by lia. lia.
Qed.


Lemma add_zero_l (x : float) : 0 + x = x \/ (x = (-0)%float /\ 0 + x = 0).
Proof.
  destruct (Prim2SF x) as [s|s| |s m e] eqn:Hx.
  - destruct s.
    + right. split; apply Prim2SF_inj; [exact Hx|].
      rewrite add_spec, Hx. reflexivity.
    + left. apply Prim2SF_inj. rewrite add_spec, Hx. reflexivity.
  - left. apply Prim2SF_inj. rewrite add_spec, Hx. reflexivity.
  - left. apply Prim2SF_inj. rewrite add_spec, Hx. reflexivity.
  - left. apply Prim2SF_inj. rewrite add_spec, Hx. reflexivity.
Qed.

Lemma mul_pow2_52 m : (m * 4503599627370496)%positive = Pos.iter xO m 52.
Proof.
  apply Pos2Z.inj. rewrite iter_xO_pow2, Pos2Z.inj_mul. reflexivity.
Qed.

Lemma SFmul_one_r (x : spec_float) :
  valid_binary x = true -> SF64mul x (Prim2SF 1) = x.
Proof.
  intros Hv.
  change (Prim2SF 1) with (S754_finite false 4503599627370496 (-52)).
  destruct x as [s|s| |s m e]; cbn [SF64mul SFmul].
  - now rewrite xorb_false_r.
  - now rewrite xorb_false_r.
  - reflexivity.
  - unfold SF64mul, SFmul. rewrite xorb_false_r, mul_pow2_52.
    cbn [valid_binary] in Hv. unfold bounded, canonical_mantissa in Hv.
    apply andb_prop in Hv as [Hc Hb].
    apply Z.eqb_eq in Hc.
    unfold binary_round_aux, shr_fexp.
    cbn [Pos.iter Zdigits2 digits2_pos].
    set (d := digits2_pos m) in *.
    match goal with |- context [shr _ _ ?n] =>
      replace n with 52%Z by (unfold fexp, SpecFloat.emin, prec, emax in *; lia) end.
    cbn [shr shr_record_of_loc SpecFloat.iter_pos shr_1 shr_m loc_of_shr_record round_nearest_even Zdigits2 orb].
    fold d.
    replace (e + -52 + 52)%Z with e by lia.
    rewrite Hc, Z.sub_diag. cbn [shr shr_m].
    now rewrite Hb.
Qed.

Lemma mul_one_r (x : float) : x * 1 = x.
Proof.
  apply Prim2SF_inj. rewrite mul_spec. apply SFmul_one_r, Prim2SF_valid.
Qed.






Lemma same_value_refl (x : float) : same_value x x = true.
Proof.
  unfold same_value, is_nan. destruct (x =? x); reflexivity.
Qed.

Lemma same_value_add_zero_l (x : float) : same_value (0 + x) x = true.
Proof.
  destruct (add_zero_l x) as [->|[-> ->]]; [apply same_value_refl|reflexivity].
Qed.

(** ** Order, NaN and subtraction *)

Lemma SFleb_trans x y z :
  SFleb x y = true -> SFleb y z = true -> SFleb x z = true.
Proof.
  unfold SFleb.
  destruct x as [s1|s1| |s1 m1 e1], y as [s2|s2| |s2 m2 e2], z as [s3|s3| |s3 m3 e3];
    cbn [SFcompare]; try discriminate; try reflexivity;
    try (destruct s1; try discriminate; try reflexivity);
    try (destruct s2; try discriminate; try reflexivity);
    try (destruct s3; try discriminate; try reflexivity);
    change (Pos.compare_cont Eq m1 m2) with (Pos.compare m1 m2);
    change (Pos.compare_cont Eq m2 m3) with (Pos.compare m2 m3);
    change (Pos.compare_cont Eq m1 m3) with (Pos.compare m1 m3);
    destruct (Z.compare_spec e1 e2), (Z.compare_spec e2 e3), (Z.compare_spec e1 e3);
    try discriminate; try reflexivity; try lia;
    destruct (Pos.compare_spec m1 m2), (Pos.compare_spec m2 m3), (Pos.compare_spec m1 m3);
    cbn [CompOpp]; try discriminate; try reflexivity; lia.
Qed.

Lemma leb_trans (x y z : float) :
  (x <=? y) = true -> (y <=? z) = true -> (x <=? z) = true.
Proof. rewrite !FloatAxioms.leb_spec. apply SFleb_trans. Qed.

Lemma SFcompare_refl x : x <> S754_nan -> SFcompare x x = Some Eq.
Proof.
  destruct x as [s|s| |s m e]; cbn [SFcompare]; intros Hx; try congruence.
  - now destruct s.
  - rewrite Z.compare_refl, Pos.compare_cont_refl. now destruct s.
Qed.

Lemma is_nan_spec (x : float) : is_nan x = true <-> Prim2SF x = S754_nan.
Proof.
  unfold is_nan. rewrite FloatAxioms.eqb_spec. unfold SFeqb. split.
  - intros H. destruct (Prim2SF x) as [s|s| |s m e] eqn:Hx; try reflexivity;
      rewrite SFcompare_refl in H by discriminate; discriminate.
  - now intros ->.
Qed.

Lemma leb_nan_l (x y : float) : is_nan x = true -> (x <=? y) = false.
Proof.
  rewrite is_nan_spec, FloatAxioms.leb_spec. now intros ->.
Qed.

Lemma leb_nan_r (x y : float) : is_nan y = true -> (x <=? y) = false.
Proof.
  rewrite is_nan_spec, FloatAxioms.leb_spec. intros ->.
  unfold SFleb. now destruct (Prim2SF x).
Qed.

Lemma SFabs_binary_round_aux s s' m e l :
  SFabs (binary_round_aux prec emax s m e l) = SFabs (binary_round_aux prec emax s' m e l).
Proof.
  unfold binary_round_aux.
  destruct (shr_fexp prec emax m e l) as [mrs' e'].
  destruct (shr_fexp prec emax _ e' loc_Exact) as [mrs'' e''].
  destruct (shr_m mrs''); [reflexivity| |reflexivity].
  destruct (e'' <=? emax - prec)%Z; reflexivity.
Qed.

Lemma SFabs_binary_normalize_opp m e :
  SFabs (binary_normalize prec emax (- m) e false) = SFabs (binary_normalize prec emax m e false).
Proof.
  destruct m as [|p|p]; [reflexivity| |].
  - change (- Z.pos p)%Z with (Z.neg p). unfold binary_normalize, binary_round.
    destruct (shl_align p e _) as [mz ez]. apply SFabs_binary_round_aux.
  - change (- Z.neg p)%Z with (Z.pos p). unfold binary_normalize, binary_round.
    destruct (shl_align p e _) as [mz ez]. apply SFabs_binary_round_aux.
Qed.

Lemma SFabs_sub_comm x y : SFabs (SF64sub x y) = SFabs (SF64sub y x).
Proof.
  unfold SF64sub.
  destruct x as [s|s| |s m e], y as [s'|s'| |s' m' e']; cbn [SFsub SFabs negb];
    try reflexivity; try (destruct s, s'; reflexivity).
  rewrite (Z.min_comm e' e), <- SFabs_binary_normalize_opp. f_equal. f_equal. lia.
Qed.

Lemma abs_sub_comm (x y : float) : abs (x - y) = abs (y - x).
Proof.
  apply Prim2SF_inj. rewrite !abs_spec, !sub_spec. apply SFabs_sub_comm.
Qed.

Lemma sub_nan_l (x y : float) : is_nan x = true -> is_nan (abs (x - y)) = true.
Proof.
  rewrite !is_nan_spec, abs_spec, sub_spec. now intros ->.
Qed.

Lemma sub_nan_r (x y : float) : is_nan y = true -> is_nan (abs (x - y)) = true.
Proof.
  rewrite !is_nan_spec, abs_spec, sub_spec. intros ->. now destruct (Prim2SF x).
Qed.

(** [x - x] is [+0] for a finite [x] and NaN otherwise. *)
Lemma abs_sub_diag (x : float) :
  abs (x - x) = (if is_finite x then 0 else nan).
Proof.
  apply Prim2SF_inj. rewrite abs_spec, sub_spec.
  unfold is_finite, is_infinity, is_nan.
  rewrite !FloatAxioms.eqb_spec, abs_spec.
  change (Prim2SF infinity) with (S754_infinity false).
  unfold SFeqb, SF64sub.
  destruct (Prim2SF x) as [s|s| |s m e] eqn:Hx; cbn [SFsub SFabs SFcompare].
  - now destruct s.
  - now destruct s.
  - reflexivity.
  - rewrite !Z.compare_refl, !Pos.compare_cont_refl.
    rewrite Z.sub_diag. now destruct s.
Qed.

Lemma SFmul_zero_r x s :
  match SF64mul x (S754_zero s) with
  | S754_zero _ | S754_nan => True
  | _ => False
  end.
Proof. destruct x; exact I. Qed.

(** [0 < m] excludes [m <= x * 0], whatever [x]. *)
Lemma pos_leb_mul_zero (m x : float) : (0 <? m) = true -> (m <=? x * 0) = false.
Proof.
  rewrite FloatAxioms.ltb_spec, FloatAxioms.leb_spec, mul_spec.
  change (Prim2SF 0) with (S754_zero false).
  pose proof (SFmul_zero_r (Prim2SF x) false) as H.
  unfold SFltb, SFleb.
  destruct (SF64mul (Prim2SF x) (S754_zero false)); try contradiction;
    destruct (Prim2SF m) as [s'|s'| |s' m' e']; cbn [SFcompare]; try discriminate; try reflexivity;
    destruct s'; try discriminate; reflexivity.
Qed.

End Binary64.

(** * Rounding: no NaN, no overflow, no underflow to zero *)

Module Binary64Range.

Local Open Scope Z_scope.

(** *** Digits *)








(** *** Shifting right *)








(** *** Rounding *)




(** *** Operations on non-negative doubles *)









End Binary64Range.

(** * The calculator, step by step *)

Section Calculator.

Context (M : Memory).

Lemma discounted_deref d r lp p q :
  deref M d = Some r -> discounted M d lp p q = Some (times r p q lp).
Proof.
  unfold deref, discounted. destruct d as [a|].
  - destruct (rules M !! a); intros [= <-]; reflexivity.
  - intros [= <-]. reflexivity.
Qed.

Lemma rule_at_deref P d :
  rule_at M P d = true ->
  exists r, deref M d = Some r /\ from_option P true r = true.
Proof.
  unfold rule_at, deref. destruct d as [a|].
  - destruct (rules M !! a) as [r|]; [|discriminate]. intros HP. now exists (Some r).
  - intros _. now exists None.
Qed.

Lemma buyer_at_rule P o :
  buyer_at M P (Order.buyer o) = true ->
  exists r, buyer_rule M o = Some r /\ from_option P true r = true.
Proof.
  unfold buyer_at, buyer_rule, buyer_discount. destruct (Order.buyer o) as [b|].
  - destruct (customers M !! b) as [c|]; [|discriminate]. apply rule_at_deref.
  - intros _. now exists None.
Qed.

Lemma line_price_times o ol ri rl rb :
  deref M (Article.discount (OrderLine.product ol)) = Some ri ->
  deref M (OrderLine.discount ol) = Some rl ->
  buyer_rule M o = Some rb ->
  line_price M o ol =
    Some (times rb (Article.price (OrderLine.product ol)) (double_of_int (OrderLine.quantity ol))
         (times rl (Article.price (OrderLine.product ol)) (double_of_int (OrderLine.quantity ol))
         (times ri (Article.price (OrderLine.product ol)) (double_of_int (OrderLine.quantity ol))
                (amount ol)))).
Proof.
  intros Hi Hl Hb. unfold line_price, amount.
  rewrite (discounted_deref _ _ _ _ _ Hi). cbn [mbind option_bind].
  rewrite (discounted_deref _ _ _ _ _ Hl). cbn [mbind option_bind].
  unfold buyer_rule in Hb. destruct (buyer_discount M o) as [bd|]; [|discriminate].
  cbn [mbind option_bind]. now apply discounted_deref.
Qed.

(** The loop adds the line prices to the running [price] from left to right. *)
Lemma sum_lines_fold o lines lps :
  Forall2 (fun ol lp => line_price M o ol = Some lp) lines lps ->
  forall price, sum_lines M o lines price = Some (fold_left PrimFloat.add lps price).
Proof.
  induction 1 as [|ol lp lines lps Hlp _ IH]; intros price; cbn [sum_lines fold_left].
  - reflexivity.
  - rewrite Hlp. cbn [mbind option_bind]. apply IH.
Qed.

Lemma sum_lines_inv o lines :
  forall price total, sum_lines M o lines price = Some total ->
  exists lps, Forall2 (fun ol lp => line_price M o ol = Some lp) lines lps
              /\ total = fold_left PrimFloat.add lps price.
Proof.
  induction lines as [|ol lines IH]; intros price total; cbn [sum_lines].
  - intros [= <-]. exists []. split; [constructor|reflexivity].
  - destruct (line_price M o ol) as [lp|] eqn:Hlp; [|discriminate].
    cbn [mbind option_bind]. intros H. destruct (IH _ _ H) as (lps & Hall & ->).
    exists (lp :: lps). split; [now constructor|reflexivity].
Qed.

Lemma attached_inv P o :
  attached M P o = true ->
  forallb (line_at M P) (Order.lines o) = true
  /\ buyer_at M P (Order.buyer o) = true
  /\ rule_at M P (Order.discount o) = true.
Proof.
  unfold attached. rewrite !andb_true_iff. tauto.
Qed.

Lemma line_at_inv P ol :
  line_at M P ol = true ->
  rule_at M P (Article.discount (OrderLine.product ol)) = true
  /\ rule_at M P (OrderLine.discount ol) = true.
Proof. unfold line_at. now rewrite andb_true_iff. Qed.

(** Every line of an order without dangling pointers has a price, built
    from rules all satisfying [P]. *)
Lemma line_price_attached P o ol :
  line_at M P ol = true -> buyer_at M P (Order.buyer o) = true ->
  exists ri rl rb,
    from_option P true ri = true /\ from_option P true rl = true
    /\ from_option P true rb = true
    /\ line_price M o ol =
         Some (times rb (Article.price (OrderLine.product ol)) (double_of_int (OrderLine.quantity ol))
              (times rl (Article.price (OrderLine.product ol)) (double_of_int (OrderLine.quantity ol))
              (times ri (Article.price (OrderLine.product ol)) (double_of_int (OrderLine.quantity ol))
                     (amount ol)))).
Proof.
  intros Hl Hb. apply line_at_inv in Hl as [Hi Hl].
  apply rule_at_deref in Hi as (ri & Hi & Pi).
  apply rule_at_deref in Hl as (rl & Hl & Pl).
  apply buyer_at_rule in Hb as (rb & Hb & Pb).
  exists ri, rl, rb. repeat split; try assumption.
  now apply line_price_times.
Qed.

Lemma lines_priced P o lines :
  forallb (line_at M P) lines = true -> buyer_at M P (Order.buyer o) = true ->
  exists lps, Forall2 (fun ol lp => line_price M o ol = Some lp) lines lps.
Proof.
  intros Hls Hb. induction lines as [|ol lines IH].
  - exists []. constructor.
  - cbn [forallb] in Hls. apply andb_true_iff in Hls as [Hl Hls].
    destruct (IH Hls) as [lps Hlps].
    destruct (line_price_attached P o ol Hl Hb) as (ri & rl & rb & _ & _ & _ & Hlp).
    eexists (_ :: lps). constructor; eassumption.
Qed.

End Calculator.

(** * Discount rules *)

Lemma DiscountPercent_cases d p q :
  DiscountPercent d p q = fraction d \/ DiscountPercent d p q = 0.
Proof.
  destruct d as [f|m f|m f|m f]; cbn [DiscountPercent fraction].
  - now left.
  - destruct (geb q m); [now left|now right].
  - destruct (geb (p * q) m); [now left|now right].
  - destruct (geb p m); [now left|now right].
Qed.

(** C5: [VolumeDiscount(minQty, f).DiscountPercent(p, q)] is [f] when
    [q >= minQty], equality included, and [0] when [q < minQty]. *)
Theorem VolumeDiscount_threshold (p q minQty f : double) :
  (geb q minQty = true -> DiscountPercent (VolumeDiscount minQty f) p q = f)
  /\ ((q <? minQty) = true -> DiscountPercent (VolumeDiscount minQty f) p q = 0)
  /\ DiscountPercent (VolumeDiscount minQty f) p minQty = (if is_nan minQty then 0 else f).
Proof.
  cbn [DiscountPercent]. repeat split.
  - now intros ->.
  - intros Hlt. unfold geb. now rewrite (Binary64.ltb_leb_false _ _ Hlt).
  - unfold geb, is_nan. rewrite FloatAxioms.leb_spec, FloatAxioms.eqb_spec.
    unfold SFleb, SFeqb.
    pose proof (Binary64.SFcompare_antisym (Prim2SF minQty) (Prim2SF minQty)) as Hc.
    destruct (SFcompare (Prim2SF minQty) (Prim2SF minQty)) as [[]|];
      (reflexivity || discriminate Hc).
Qed.

Lemma VolumeDiscount_threshold_witness :
  DiscountPercent (VolumeDiscount 10 0.15) 10 10 = 0.15
  /\ DiscountPercent (VolumeDiscount 10 0.15) 10 9 = 0.
Proof.
  split.
  - apply (proj1 (VolumeDiscount_threshold 10 10 10 0.15)). reflexivity.
  - apply (proj1 (proj2 (VolumeDiscount_threshold 10 9 10 0.15))). reflexivity.
Defined.

(** C8: for each of the four rule variants and every pair of doubles
    (negative numbers, infinities and NaN included) [DiscountPercent] returns
    a value, which is the rule's fraction or [0]. *)
Theorem DiscountPercent_total (d : DiscountType) (price quantity : double) :
  exists f, DiscountPercent d price quantity = f /\ (f = fraction d \/ f = 0).
Proof.
  exists (DiscountPercent d price quantity). split; [reflexivity|].
  apply DiscountPercent_cases.
Qed.

(** * The price of a line *)

(** C1: a line contributes [price * quantity], multiplied in turn by [1 - f]
    for the item's, the line's and the buyer's rule when attached, each [f]
    being that rule evaluated at the line's own [(price, quantity)]; for an
    order of one line with [FixedDiscount f1] on the item and
    [FixedDiscount f2] on the buyer the total is
    [price * quantity * (1 - f1) * (1 - f2)]. *)
Theorem line_discounts_stack (M : Memory) (o : Order.t) (ol : OrderLine.t)
    (ri rl rb : option DiscountType) :
  let p := Article.price (OrderLine.product ol) in
  let q := double_of_int (OrderLine.quantity ol) in
  deref M (Article.discount (OrderLine.product ol)) = Some ri ->
  deref M (OrderLine.discount ol) = Some rl ->
  buyer_rule M o = Some rb ->
  line_price M o ol = Some (times rb p q (times rl p q (times ri p q (p * q))))
  /\ (forall rest price,
        sum_lines M o (ol :: rest) price =
          sum_lines M o rest (price + times rb p q (times rl p q (times ri p q (p * q)))))
  /\ (forall f1 f2,
        ri = Some (FixedDiscount f1) -> rl = None -> rb = Some (FixedDiscount f2) ->
        Order.lines o = [ol] -> Order.discount o = None ->
        exists total, CalculatePrice M o = Some total
                      /\ same_value total (p * q * (1 - f1) * (1 - f2)) = true).
Proof.
  intros p q Hi Hl Hb.
  pose proof (line_price_times M o ol ri rl rb Hi Hl Hb) as Hlp.
  fold p q in Hlp. unfold amount in Hlp. fold p q in Hlp.
  split; [exact Hlp|split].
  - intros rest price. cbn [sum_lines]. now rewrite Hlp.
  - intros f1 f2 -> -> -> Hlines Hnone. unfold CalculatePrice.
    rewrite Hlines, Hnone. cbn [sum_lines]. rewrite Hlp.
    cbn [mbind option_bind discounted times DiscountPercent].
    eexists. split; [reflexivity|]. apply Binary64.same_value_add_zero_l.
Qed.

Lemma line_discounts_stack_witness :
  exists total,
    CalculatePrice Main.M Main.o4 = Some total
    /\ same_value total (15 * 1 * (1 - 0.1) * (1 - 0.1)) = true
    /\ AreEqual total (15 * 1 * (1 - (0.1 + 0.1))) = false.
Proof.
  destruct (line_discounts_stack Main.M Main.o4 (OrderLine.mk Main.a2 1 None)
              (Some Main.d1) None (Some Main.d1) eq_refl eq_refl eq_refl)
    as (_ & _ & H).
  destruct (H 0.1 0.1 eq_refl eq_refl eq_refl eq_refl eq_refl) as (total & Ht & Hs).
  exists total. split; [exact Ht|split; [exact Hs|]].
  vm_compute in Ht. injection Ht as <-. reflexivity.
Defined.



(** * The order total *)

(** C2: the order's own rule is applied once, to the sum [S] of the line
    prices, evaluated at [(S, 0)]; a [VolumeDiscount] with a positive
    threshold there leaves the total at [S]. *)
Theorem order_discount_on_sum (M : Memory) (o : Order.t) (lps : list double)
    (a : addr) (r : DiscountType) :
  Forall2 (fun ol lp => line_price M o ol = Some lp) (Order.lines o) lps ->
  Order.discount o = Some a ->
  rules M !! a = Some r ->
  CalculatePrice M o = Some (sum lps * (1 - DiscountPercent r (sum lps) 0))
  /\ (forall minQty f, r = VolumeDiscount minQty f -> (0 <? minQty) = true ->
        CalculatePrice M o = Some (sum lps)).
Proof.
  intros Hlps Hd Hr.
  assert (Htotal : CalculatePrice M o = Some (sum lps * (1 - DiscountPercent r (sum lps) 0))).
  { unfold CalculatePrice. rewrite (sum_lines_fold M o _ lps Hlps 0).
    cbn [mbind option_bind]. unfold discounted. now rewrite Hd, Hr. }
  split; [exact Htotal|].
  intros minQty f -> Hpos. rewrite Htotal. cbn [DiscountPercent]. unfold geb.
  rewrite (Binary64.ltb_leb_false _ _ Hpos).
  change (1 - 0) with 1. now rewrite Binary64.mul_one_r.
Qed.

Lemma order_discount_on_sum_witness :
  CalculatePrice Main.M Main.o9
    = Some (sum [15 * 20 * (1 - 0.1) * (1 - 0.1) * (1 - 0.05)]
            * (1 - DiscountPercent Main.d4 (sum [15 * 20 * (1 - 0.1) * (1 - 0.1) * (1 - 0.05)]) 0))
  /\ CalculatePrice Main.M
       (Order.mk 110 (Some 3%positive) [OrderLine.mk Main.a2 20 (Some 1%positive)] (Some 2%positive))
     = Some (sum [15 * 20 * (1 - 0.1) * (1 - 0.1) * (1 - 0.05)]).
Proof.
  split.
  - apply (order_discount_on_sum Main.M Main.o9 _ 4%positive Main.d4);
      [repeat constructor|reflexivity|reflexivity].
  - apply (proj2 (order_discount_on_sum Main.M
                    (Order.mk 110 (Some 3%positive) [OrderLine.mk Main.a2 20 (Some 1%positive)]
                       (Some 2%positive))
                    [15 * 20 * (1 - 0.1) * (1 - 0.1) * (1 - 0.05)] 2%positive Main.d2
                    ltac:(repeat constructor) eq_refl eq_refl) 10 0.15 eq_refl eq_refl).
Defined.

(** C3: orders [o9] and [o8] of [main] (one line, price 15, quantity 20,
    [FixedDiscount 0.1] on the item and on the line, buyer with
    [PriceDiscount 100 0.05], and for [o9] an order-level
    [AmountDiscount 100 0.05]) cost 219.3075 and 230.85 up to 0.001. *)
Theorem main_o9_o8 :
  (exists total, CalculatePrice Main.M Main.o9 = Some total
                 /\ AreEqual total 219.3075 = true)
  /\ (exists total, CalculatePrice Main.M Main.o8 = Some total
                    /\ AreEqual total 230.85 = true).
Proof.
  split; eexists; (split; [vm_compute; reflexivity|vm_compute; reflexivity]).
Qed.

(** C4: without any rule at any level the total is the sum, in line order,
    of [price * quantity]. *)
Theorem no_discounts_total (M : Memory) (o : Order.t) :
  no_discounts M o = true ->
  CalculatePrice M o = Some (sum (map amount (Order.lines o))).
Proof.
  intros H. apply attached_inv in H as (Hls & Hb & Ho).
  assert (Hnone : forall d, rule_at M (fun _ => false) d = true -> d = None).
  { intros [a|]; [|reflexivity]. unfold rule_at. now destruct (rules M !! a). }
  apply Hnone in Ho.
  assert (Hrb : buyer_rule M o = Some None).
  { apply buyer_at_rule in Hb as ([r|] & Hr & HP); [discriminate HP|exact Hr]. }
  assert (Hlps : Forall2 (fun ol lp => line_price M o ol = Some lp)
                   (Order.lines o) (map amount (Order.lines o))).
  { induction (Order.lines o) as [|ol ls IH]; [constructor|].
    cbn [forallb] in Hls. apply andb_true_iff in Hls as [Hl Hls].
    apply line_at_inv in Hl as [Hi Hl]. apply Hnone in Hi, Hl.
    cbn [map]. constructor; [|now apply IH].
    rewrite (line_price_times M o ol None None None); [reflexivity| | |exact Hrb].
    - now rewrite Hi.
    - now rewrite Hl. }
  unfold CalculatePrice. rewrite (sum_lines_fold M o _ _ Hlps 0), Ho. reflexivity.
Qed.

Lemma no_discounts_total_witness :
  CalculatePrice Main.M
    (Order.mk 111 (Some 1%positive)
       [OrderLine.mk Main.a1 1 None; OrderLine.mk Main.a1 3 None] None)
  = Some (0 + 5 * 1 + 5 * 3).
Proof.
  apply (no_discounts_total Main.M
           (Order.mk 111 (Some 1%positive)
              [OrderLine.mk Main.a1 1 None; OrderLine.mk Main.a1 3 None] None)).
  reflexivity.
Defined.

(** C6: called on any order without dangling pointers, the calculator
    returns a total; a null buyer counts as no buyer rule, a null rule pointer
    leaves the line price as it is (a factor of 1), and no lines give a sum
    of 0. *)
Theorem no_error_paths (M : Memory) (o : Order.t) :
  well_formed M o = true ->
  (exists total, CalculatePrice M o = Some total)
  /\ (Order.buyer o = None -> buyer_rule M o = Some None)
  /\ (forall lp p q, discounted M None lp p q = Some lp /\ lp * 1 = lp)
  /\ (Order.lines o = [] -> sum_lines M o (Order.lines o) 0 = Some 0).
Proof.
  intros H. apply attached_inv in H as (Hls & Hb & Ho). repeat split.
  - destruct (lines_priced M _ o _ Hls Hb) as [lps Hlps].
    apply rule_at_deref in Ho as (r & Hr & _).
    unfold CalculatePrice. rewrite (sum_lines_fold M o _ lps Hlps 0).
    cbn [mbind option_bind]. rewrite (discounted_deref M _ r _ _ _ Hr). now eexists.
  - intros Hnb. unfold buyer_rule, buyer_discount. now rewrite Hnb.
  - apply Binary64.mul_one_r.
  - now intros ->.
Qed.

Lemma no_error_paths_witness :
  (exists total, CalculatePrice Main.M (Order.mk 112 None [] None) = Some total)
  /\ (exists total, CalculatePrice Main.M Main.o9 = Some total).
Proof.
  split.
  - exact (proj1 (no_error_paths Main.M (Order.mk 112 None [] None) eq_refl)).
  - exact (proj1 (no_error_paths Main.M Main.o9 eq_refl)).
Defined.

(** * What the calculator reads *)

Section Frame.

Context (M1 M2 : Memory).

Lemma discounted_agree d lp p q :
  (forall a, In a (ptr_addrs d) -> rules M1 !! a = rules M2 !! a) ->
  discounted M1 d lp p q = discounted M2 d lp p q.
Proof.
  destruct d as [a|]; cbn [discounted ptr_addrs]; [|reflexivity].
  intros H. rewrite (H a); [reflexivity|now left].
Qed.

Lemma buyer_discount_agree o :
  (forall b, In b (order_customers o) -> customers M1 !! b = customers M2 !! b) ->
  buyer_discount M1 o = buyer_discount M2 o.
Proof.
  unfold buyer_discount, order_customers. destruct (Order.buyer o) as [b|]; [|reflexivity].
  intros H. rewrite (H b); [reflexivity|now left].
Qed.

Lemma line_price_agree o ol :
  same_graph M1 M2 o -> In ol (Order.lines o) ->
  line_price M1 o ol = line_price M2 o ol.
Proof.
  intros [Hc Hr] Hin. unfold line_price.
  assert (Hline : forall a,
             In a (ptr_addrs (Article.discount (OrderLine.product ol))
                   ++ ptr_addrs (OrderLine.discount ol)) ->
             rules M1 !! a = rules M2 !! a).
  { intros a Ha. apply Hr. unfold order_rules. rewrite !in_app_iff. right. right.
    apply in_flat_map. now exists ol. }
  rewrite (discounted_agree (Article.discount (OrderLine.product ol)))
    by (intros a Ha; apply Hline, in_app_iff; now left).
  destruct (discounted M2 (Article.discount (OrderLine.product ol)) _ _ _) as [lp1|];
    cbn [mbind option_bind]; [|reflexivity].
  rewrite (discounted_agree (OrderLine.discount ol))
    by (intros a Ha; apply Hline, in_app_iff; now right).
  destruct (discounted M2 (OrderLine.discount ol) _ _ _) as [lp2|];
    cbn [mbind option_bind]; [|reflexivity].
  rewrite <- (buyer_discount_agree o Hc).
  destruct (buyer_discount M1 o) as [bd|] eqn:Hbd; cbn [mbind option_bind]; [|reflexivity].
  apply discounted_agree. intros a Ha. apply Hr. unfold order_rules.
  rewrite Hbd, !in_app_iff. right. now left.
Qed.

Lemma sum_lines_agree o lines :
  (forall ol, In ol lines -> line_price M1 o ol = line_price M2 o ol) ->
  forall price, sum_lines M1 o lines price = sum_lines M2 o lines price.
Proof.
  induction lines as [|ol lines IH]; intros H price; cbn [sum_lines]; [reflexivity|].
  rewrite (H ol) by now left.
  destruct (line_price M2 o ol); cbn [mbind option_bind]; [|reflexivity].
  apply IH. intros ol' Hin. apply H. now right.
Qed.

End Frame.

(** C7: the result of [CalculatePrice] is a function of the order and of the
    objects its pointers lead to, and of nothing else: evaluations in two
    memories holding the same order graph (in particular two evaluations in
    the same memory) return the same result. *)
Theorem CalculatePrice_pure (M1 M2 : Memory) (o : Order.t) :
  same_graph M1 M2 o -> CalculatePrice M1 o = CalculatePrice M2 o.
Proof.
  intros Hg. unfold CalculatePrice.
  rewrite (sum_lines_agree M1 M2 o (Order.lines o))
    by (intros ol Hin; now apply line_price_agree).
  destruct (sum_lines M2 o (Order.lines o) 0) as [price|]; cbn [mbind option_bind];
    [|reflexivity].
  apply discounted_agree. intros a Ha. apply (proj2 Hg). unfold order_rules.
  apply in_app_iff. now left.
Qed.

Lemma CalculatePrice_pure_witness :
  CalculatePrice Main.M Main.o8 = CalculatePrice other_memory Main.o8
  /\ CalculatePrice Main.M Main.o8 = CalculatePrice Main.M Main.o8.
Proof.
  split.
  - apply (CalculatePrice_pure Main.M other_memory Main.o8). split.
    + intros b [<-|[]]. reflexivity.
    + intros a Ha. vm_compute in Ha.
      destruct Ha as [<-|[<-|[<-|[]]]]; reflexivity.
  - apply (CalculatePrice_pure Main.M Main.M Main.o8). split; reflexivity.
Defined.

(** X17: the nine assertions of [main] hold, so [main] runs to its end. *)
Example main_assertions :
  Forall2 (fun o expected =>
             exists total, CalculatePrice Main.M o = Some total
                           /\ AreEqual total expected = true)
    [Main.o1; Main.o2; Main.o3; Main.o4; Main.o5; Main.o6; Main.o7; Main.o8; Main.o9]
    [5; 4.5; 13.5; 12.15; 10; 127.5; 121.125; 230.85; 219.3075].
Proof.
  repeat constructor; eexists; (split; [vm_compute; reflexivity|vm_compute; reflexivity]).
Qed.

(** * The sign of the total *)






(** ** When the total is a number *)





















(** * Further properties of the discount rules *)

Lemma mul_nan (p q : double) :
  is_nan p = true \/ is_nan q = true -> is_nan (p * q) = true.
Proof.
  rewrite !Binary64.is_nan_spec, mul_spec. intros [-> | ->]; [reflexivity|].
  now destruct (Prim2SF p).
Qed.

(** X1: [PriceDiscount(min, f)] looks at [price * quantity]: [f] from the
    threshold on, [0] below it; with a positive threshold a quantity of 0
    never reaches it, whatever the price. *)
Theorem PriceDiscount_threshold (p q minTotal f : double) :
  (geb (p * q) minTotal = true -> DiscountPercent (PriceDiscount minTotal f) p q = f)
  /\ ((p * q <? minTotal) = true -> DiscountPercent (PriceDiscount minTotal f) p q = 0)
  /\ ((0 <? minTotal) = true -> DiscountPercent (PriceDiscount minTotal f) p 0 = 0).
Proof.
  cbn [DiscountPercent]. unfold geb. repeat split.
  - now intros ->.
  - intros Hlt. now rewrite (Binary64.ltb_leb_false _ _ Hlt).
  - intros Hpos. now rewrite (Binary64.pos_leb_mul_zero _ p Hpos).
Qed.

Lemma PriceDiscount_threshold_witness :
  DiscountPercent (PriceDiscount 100 0.05) 10 15 = 0.05
  /\ DiscountPercent (PriceDiscount 100 0.05) 10 9 = 0
  /\ DiscountPercent (PriceDiscount 100 0.05) infinity 0 = 0.
Proof.
  split; [|split].
  - apply (proj1 (PriceDiscount_threshold 10 15 100 0.05)). reflexivity.
  - apply (proj1 (proj2 (PriceDiscount_threshold 10 9 100 0.05))). reflexivity.
  - apply (proj2 (proj2 (PriceDiscount_threshold infinity 0 100 0.05))). reflexivity.
Defined.

(** X2: [AmountDiscount(min, f)] looks at the price alone: [f] from the
    threshold on, [0] below it, for any two quantities alike. *)
Theorem AmountDiscount_threshold (p q q' minPrice f : double) :
  (geb p minPrice = true -> DiscountPercent (AmountDiscount minPrice f) p q = f)
  /\ ((p <? minPrice) = true -> DiscountPercent (AmountDiscount minPrice f) p q = 0)
  /\ DiscountPercent (AmountDiscount minPrice f) p q
     = DiscountPercent (AmountDiscount minPrice f) p q'.
Proof.
  cbn [DiscountPercent]. unfold geb. repeat split.
  - now intros ->.
  - intros Hlt. now rewrite (Binary64.ltb_leb_false _ _ Hlt).
Qed.

Lemma AmountDiscount_threshold_witness :
  DiscountPercent (AmountDiscount 100 0.05) 100 1 = 0.05
  /\ DiscountPercent (AmountDiscount 100 0.05) 99.99 1000 = 0.
Proof.
  split.
  - apply (proj1 (AmountDiscount_threshold 100 1 1 100 0.05)). reflexivity.
  - apply (proj1 (proj2 (AmountDiscount_threshold 99.99 1000 1 100 0.05))). reflexivity.
Defined.

(** X3: a threshold once reached stays reached: a [VolumeDiscount] granted
    at a quantity is granted at every larger quantity, and an
    [AmountDiscount] granted at a price is granted at every larger price. *)
Theorem threshold_monotone (p p' q q' m f : double) :
  (geb q m = true -> (q <=? q') = true ->
     DiscountPercent (VolumeDiscount m f) p q' = f)
  /\ (geb p m = true -> (p <=? p') = true ->
        DiscountPercent (AmountDiscount m f) p' q = f).
Proof.
  cbn [DiscountPercent]. unfold geb. split; intros H1 H2;
    now rewrite (Binary64.leb_trans _ _ _ H1 H2).
Qed.

Lemma threshold_monotone_witness :
  DiscountPercent (VolumeDiscount 10 0.15) 10 1000 = 0.15
  /\ DiscountPercent (AmountDiscount 100 0.05) infinity 1 = 0.05.
Proof.
  split.
  - apply (proj1 (threshold_monotone 10 10 15 1000 10 0.15)); reflexivity.
  - apply (proj2 (threshold_monotone 150 infinity 1 1 100 0.05)); reflexivity.
Defined.

(** X4: a rule whose threshold is NaN never grants its discount. *)
Theorem nan_threshold_never_applies (d : DiscountType) (m p q : double) :
  threshold d = Some m -> is_nan m = true -> DiscountPercent d p q = 0.
Proof.
  intros Hd Hm. destruct d as [f|m' f|m' f|m' f]; cbn [threshold] in Hd;
    [discriminate| | |]; injection Hd as ->; cbn [DiscountPercent]; unfold geb;
    now rewrite (Binary64.leb_nan_l _ _ Hm).
Qed.

Lemma nan_threshold_never_applies_witness :
  DiscountPercent (VolumeDiscount nan 0.15) 10 infinity = 0.
Proof.
  apply (nan_threshold_never_applies (VolumeDiscount nan 0.15) nan 10 infinity);
    reflexivity.
Defined.

(** X5: a NaN where a rule looks never grants a discount: a NaN quantity for
    [VolumeDiscount], a NaN price for [AmountDiscount], either for
    [PriceDiscount]. *)
Theorem nan_input_never_applies (p q m f : double) :
  (is_nan q = true -> DiscountPercent (VolumeDiscount m f) p q = 0)
  /\ (is_nan p = true -> DiscountPercent (AmountDiscount m f) p q = 0)
  /\ (is_nan p = true \/ is_nan q = true ->
        DiscountPercent (PriceDiscount m f) p q = 0).
Proof.
  cbn [DiscountPercent]. unfold geb. repeat split; intros H.
  - now rewrite (Binary64.leb_nan_r _ _ H).
  - now rewrite (Binary64.leb_nan_r _ _ H).
  - now rewrite (Binary64.leb_nan_r _ _ (mul_nan p q H)).
Qed.

Lemma nan_input_never_applies_witness :
  DiscountPercent (VolumeDiscount 10 0.15) 10 nan = 0
  /\ DiscountPercent (PriceDiscount (-1) 0.05) 10 nan = 0.
Proof.
  split.
  - apply (proj1 (nan_input_never_applies 10 nan 10 0.15)). reflexivity.
  - apply (proj2 (proj2 (nan_input_never_applies 10 nan (-1) 0.05))). right. reflexivity.
Defined.

(** * Further properties of the calculator *)

Lemma times_untriggered r p q x :
  (forall r', r = Some r' -> DiscountPercent r' p q = 0) -> times r p q x = x.
Proof.
  destruct r as [r|]; cbn [times]; intros H; [|reflexivity].
  rewrite (H r eq_refl). change (1 - 0) with 1. apply Binary64.mul_one_r.
Qed.

(** X6: a line none of whose rules is triggered costs exactly
    [price * quantity]: multiplying by [1 - 0] changes nothing. *)
Theorem untriggered_rules_leave_amount (M : Memory) (o : Order.t) (ol : OrderLine.t)
    (ri rl rb : option DiscountType) :
  deref M (Article.discount (OrderLine.product ol)) = Some ri ->
  deref M (OrderLine.discount ol) = Some rl ->
  buyer_rule M o = Some rb ->
  (forall r, In (Some r) [ri; rl; rb] ->
     DiscountPercent r (Article.price (OrderLine.product ol))
       (double_of_int (OrderLine.quantity ol)) = 0) ->
  line_price M o ol = Some (amount ol).
Proof.
  intros Hi Hl Hb H0. rewrite (line_price_times M o ol ri rl rb Hi Hl Hb).
  rewrite !times_untriggered; [reflexivity| | |];
    intros r ->; apply H0; cbn [In]; tauto.
Qed.

Lemma untriggered_rules_leave_amount_witness :
  line_price Main.M Main.o7 (OrderLine.mk Main.a3 9 None) = Some (10 * 9).
Proof.
  apply (untriggered_rules_leave_amount Main.M Main.o7 (OrderLine.mk Main.a3 9 None)
           (Some Main.d2) None (Some Main.d3) eq_refl eq_refl eq_refl).
  intros r [H|[H|[H|[]]]]; try discriminate H; injection H as <-; reflexivity.
Defined.

(** X7: an order-level [PriceDiscount] with a positive threshold never
    applies: it is evaluated at quantity 0, and [total * 0] is not above any
    positive threshold. *)
Theorem order_level_PriceDiscount_never_applies (M : Memory) (o : Order.t)
    (lps : list double) (a : addr) (minTotal f : double) :
  Forall2 (fun ol lp => line_price M o ol = Some lp) (Order.lines o) lps ->
  Order.discount o = Some a ->
  rules M !! a = Some (PriceDiscount minTotal f) ->
  (0 <? minTotal) = true ->
  CalculatePrice M o = Some (sum lps).
Proof.
  intros Hlps Hd Hr Hpos. unfold CalculatePrice.
  rewrite (sum_lines_fold M o _ lps Hlps 0). cbn [mbind option_bind].
  unfold discounted. rewrite Hd, Hr. cbn [DiscountPercent]. unfold geb.
  rewrite (Binary64.pos_leb_mul_zero _ _ Hpos).
  change (1 - 0) with 1. now rewrite Binary64.mul_one_r.
Qed.

Lemma order_level_PriceDiscount_never_applies_witness :
  CalculatePrice Main.M
    (Order.mk 114 (Some 3%positive) [OrderLine.mk Main.a2 20 (Some 1%positive)] (Some 3%positive))
  = CalculatePrice Main.M Main.o8.
Proof.
  rewrite (order_level_PriceDiscount_never_applies Main.M
             (Order.mk 114 (Some 3%positive) [OrderLine.mk Main.a2 20 (Some 1%positive)]
                (Some 3%positive))
             [15 * 20 * (1 - 0.1) * (1 - 0.1) * (1 - 0.05)] 3%positive 100 0.05
             ltac:(repeat constructor) eq_refl eq_refl eq_refl).
  reflexivity.
Defined.

Lemma is_finite_mul_zero (x : double) : is_finite x = true -> is_zero (x * (1 - 1)) = true.
Proof.
  change (1 - 1) with 0. unfold is_finite, is_infinity, is_nan, is_zero.
  rewrite !FloatAxioms.eqb_spec, abs_spec, mul_spec.
  change (Prim2SF infinity) with (S754_infinity false).
  change (Prim2SF 0) with (S754_zero false).
  destruct (Prim2SF x) as [s|s| |s m e]; try reflexivity.
  - now destruct s.
  - discriminate.
Qed.

(** X8: an order-level [FixedDiscount(1)] brings every finite sum of line
    prices to zero. *)
Theorem full_order_discount_zero (M : Memory) (o : Order.t) (lps : list double) (a : addr) :
  Forall2 (fun ol lp => line_price M o ol = Some lp) (Order.lines o) lps ->
  Order.discount o = Some a ->
  rules M !! a = Some (FixedDiscount 1) ->
  is_finite (sum lps) = true ->
  exists total, CalculatePrice M o = Some total /\ is_zero total = true.
Proof.
  intros Hlps Hd Hr Hfin. unfold CalculatePrice.
  rewrite (sum_lines_fold M o _ lps Hlps 0). cbn [mbind option_bind].
  unfold discounted. rewrite Hd, Hr. cbn [DiscountPercent].
  eexists. split; [reflexivity|]. now apply is_finite_mul_zero.
Qed.

Lemma full_order_discount_zero_witness :
  exists total,
    CalculatePrice overflow_memory
      (Order.mk 115 None [OrderLine.mk Main.a1 3 None] (Some 1%positive)) = Some total
    /\ is_zero total = true.
Proof.
  apply (full_order_discount_zero overflow_memory
           (Order.mk 115 None [OrderLine.mk Main.a1 3 None] (Some 1%positive))
           [5 * 3] 1%positive); [repeat constructor|reflexivity|reflexivity|reflexivity].
Defined.

Lemma line_price_buyer M o o' ol :
  Order.buyer o = Order.buyer o' -> line_price M o ol = line_price M o' ol.
Proof.
  intros Hb. unfold line_price, buyer_discount. now rewrite Hb.
Qed.

Lemma sum_lines_buyer M o o' lines :
  Order.buyer o = Order.buyer o' ->
  forall price, sum_lines M o lines price = sum_lines M o' lines price.
Proof.
  intros Hb. induction lines as [|ol lines IH]; intros price; cbn [sum_lines]; [reflexivity|].
  rewrite (line_price_buyer M o o' ol Hb).
  destruct (line_price M o' ol); cbn [mbind option_bind]; [apply IH|reflexivity].
Qed.

Lemma sum_lines_app M o l1 l2 :
  forall price,
    sum_lines M o (l1 ++ l2) price
    = match sum_lines M o l1 price with
      | Some price' => sum_lines M o l2 price'
      | None => None
      end.
Proof.
  induction l1 as [|ol l1 IH]; intros price; cbn [app sum_lines]; [reflexivity|].
  destruct (line_price M o ol); cbn [mbind option_bind]; [apply IH|reflexivity].
Qed.

(** X9: a line pushed at the end of an order adds its own price to the sum
    the order had; without an order-level rule the new total is the old one
    plus that price. *)
Theorem push_line_adds_price (M : Memory) (o : Order.t) (ol : OrderLine.t) (S lp : double) :
  sum_lines M o (Order.lines o) 0 = Some S ->
  line_price M o ol = Some lp ->
  CalculatePrice M (push_line o ol) = discounted M (Order.discount o) (S + lp) (S + lp) 0
  /\ (Order.discount o = None ->
        CalculatePrice M o = Some S /\ CalculatePrice M (push_line o ol) = Some (S + lp)).
Proof.
  intros HS Hlp.
  assert (Hpush : CalculatePrice M (push_line o ol)
                  = discounted M (Order.discount o) (S + lp) (S + lp) 0).
  { unfold CalculatePrice. cbn [push_line Order.lines Order.discount].
    rewrite (sum_lines_buyer M (push_line o ol) o _ eq_refl), sum_lines_app, HS.
    cbn [sum_lines]. now rewrite Hlp. }
  split; [exact Hpush|]. intros Hnone. split.
  - unfold CalculatePrice. now rewrite HS, Hnone.
  - now rewrite Hpush, Hnone.
Qed.

Lemma push_line_adds_price_witness :
  CalculatePrice Main.M (push_line Main.o3 (OrderLine.mk Main.a1 2 None))
  = Some (0 + 15 * 1 * (1 - 0.1) + 5 * 2).
Proof.
  apply (proj2 (push_line_adds_price Main.M Main.o3 (OrderLine.mk Main.a1 2 None)
                  (0 + 15 * 1 * (1 - 0.1)) (5 * 2) eq_refl eq_refl) eq_refl).
Defined.

(** X10: a buyer's rule acts as if it were the own rule of every line that
    has none: moving it from the buyer onto the lines leaves the total as it
    was. *)
Theorem buyer_rule_as_line_rule (M : Memory) (o : Order.t) (d : ptr) :
  buyer_discount M o = Some d ->
  Forall (fun ol => OrderLine.discount ol = None) (Order.lines o) ->
  CalculatePrice M (buyer_rule_on_lines o d) = CalculatePrice M o.
Proof.
  intros Hbd Hall. unfold CalculatePrice.
  cbn [buyer_rule_on_lines Order.lines Order.discount].
  assert (Hsum : forall price,
             sum_lines M (buyer_rule_on_lines o d)
               (map (fun ol => with_line_rule ol d) (Order.lines o)) price
             = sum_lines M o (Order.lines o) price).
  { induction Hall as [|ol lines Hol _ IH]; intros price; cbn [map sum_lines]; [reflexivity|].
    assert (Hlp : line_price M (buyer_rule_on_lines o d) (with_line_rule ol d)
                  = line_price M o ol).
    { unfold line_price.
      cbn [with_line_rule OrderLine.product OrderLine.quantity OrderLine.discount].
      rewrite Hol, Hbd.
      destruct (discounted M (Article.discount (OrderLine.product ol)) _ _ _) as [lp1|];
        cbn [mbind option_bind discounted]; [|reflexivity].
      destruct (discounted M d lp1 _ _) as [lp2|]; reflexivity. }
    rewrite Hlp. destruct (line_price M o ol); cbn [mbind option_bind]; [apply IH|reflexivity]. }
  now rewrite Hsum.
Qed.

Lemma buyer_rule_as_line_rule_witness :
  CalculatePrice Main.M
    (Order.mk 104 None [OrderLine.mk Main.a2 1 (Some 1%positive)] None)
  = CalculatePrice Main.M Main.o4.
Proof.
  apply (buyer_rule_as_line_rule Main.M Main.o4 (Some 1%positive) eq_refl).
  repeat constructor.
Defined.

(** X11: identifiers, names and units of measure play no part: with all of
    them blanked, in the order and in the customers, the total is the same. *)
Theorem CalculatePrice_ignores_labels (M : Memory) (o : Order.t) :
  CalculatePrice (strip_memory M) (strip_order o) = CalculatePrice M o.
Proof.
  assert (Hbd : buyer_discount (strip_memory M) (strip_order o) = buyer_discount M o).
  { unfold buyer_discount. cbn [strip_order Order.buyer strip_memory customers].
    destruct (Order.buyer o) as [b|]; [|reflexivity].
    rewrite lookup_fmap. now destruct (customers M !! b). }
  assert (Hlp : forall ol, line_price (strip_memory M) (strip_order o) (strip_line ol)
                           = line_price M o ol).
  { intros ol. unfold line_price. now rewrite Hbd. }
  unfold CalculatePrice. cbn [strip_order Order.lines Order.discount].
  assert (Hsum : forall lines price,
             sum_lines (strip_memory M) (strip_order o) (map strip_line lines) price
             = sum_lines M o lines price).
  { induction lines as [|ol lines IH]; intros price; cbn [map sum_lines]; [reflexivity|].
    rewrite Hlp. destruct (line_price M o ol); cbn [mbind option_bind]; [apply IH|reflexivity]. }
  now rewrite Hsum.
Qed.

(** * [AreEqual] *)

(** X12: [AreEqual] does not depend on the order of the two numbers. *)
Theorem AreEqual_sym (d1 d2 diff : double) :
  AreEqual_diff d1 d2 diff = AreEqual_diff d2 d1 diff /\ AreEqual d1 d2 = AreEqual d2 d1.
Proof.
  unfold AreEqual, AreEqual_diff. now rewrite (Binary64.abs_sub_comm d1 d2).
Qed.

(** X13: a double is [AreEqual] to itself exactly when it is finite:
    infinities and NaN are not. *)
Theorem AreEqual_refl_finite (x : double) : AreEqual x x = is_finite x.
Proof.
  unfold AreEqual, AreEqual_diff. rewrite Binary64.abs_sub_diag.
  now destruct (is_finite x).
Qed.

(** X14: with a NaN among the two numbers and the tolerance, [AreEqual] is
    false. *)
Theorem AreEqual_nan (d1 d2 diff : double) :
  is_nan d1 = true \/ is_nan d2 = true \/ is_nan diff = true ->
  AreEqual_diff d1 d2 diff = false.
Proof.
  unfold AreEqual_diff. intros [H|[H|H]].
  - apply Binary64.leb_nan_l, Binary64.sub_nan_l, H.
  - apply Binary64.leb_nan_l, Binary64.sub_nan_r, H.
  - apply Binary64.leb_nan_r, H.
Qed.

Lemma AreEqual_nan_witness : AreEqual_diff nan nan infinity = false.
Proof.
  apply (AreEqual_nan nan nan infinity). left. reflexivity.
Defined.

(** X15: what is equal within a tolerance is equal within any larger one. *)
Theorem AreEqual_diff_mono (d1 d2 diff diff' : double) :
  AreEqual_diff d1 d2 diff = true -> (diff <=? diff') = true ->
  AreEqual_diff d1 d2 diff' = true.
Proof.
  unfold AreEqual_diff. apply Binary64.leb_trans.
Qed.

Lemma AreEqual_diff_mono_witness : AreEqual_diff 219.30749999999998 219.3075 1 = true.
Proof.
  apply (AreEqual_diff_mono 219.30749999999998 219.3075 0.001 1); reflexivity.
Defined.

(** X16: under a negative tolerance nothing is equal, not even a number and
    itself. *)
Theorem AreEqual_negative_tolerance (d1 d2 diff : double) :
  (diff <? 0) = true -> AreEqual_diff d1 d2 diff = false.
Proof.
  unfold AreEqual_diff.
  rewrite FloatAxioms.ltb_spec, FloatAxioms.leb_spec, abs_spec.
  change (Prim2SF 0) with (S754_zero false). unfold SFltb, SFleb.
  destruct (Prim2SF (d1 - d2)) as [s|s| |s m e], (Prim2SF diff) as [s'|s'| |s' m' e'];
    cbn [SFabs SFcompare]; try discriminate; try reflexivity;
    destruct s'; try discriminate; reflexivity.
Qed.

Lemma AreEqual_negative_tolerance_witness : AreEqual_diff 5 5 (-0.001) = false.
Proof.
  apply (AreEqual_negative_tolerance 5 5 (-0.001)). reflexivity.
Defined.
